(** * Mux Live Streams resource: a shallow embedding of
      [src/video/resources/liveStreams.ts] and the properties of its
      request-shaping methods.

    Every method of the [LiveStreams] class validates its arguments with
    JavaScript truthiness tests, builds a path from template literals and
    calls at most one method of the HTTP client held in [this.http].  The
    embedding keeps that shape: JavaScript values with their truthiness and
    string conversion, promises as settled outcomes, the HTTP client as a
    record of five methods acting on an abstract network state, and the
    methods themselves as computations in a small state-and-trace monad. *)

From Stdlib Require Import String List Bool Arith Lia.
Import ListNotations.
Local Open Scope string_scope.

(** ** JavaScript values *)

Module JS.

(** The values a caller hands to the methods: the declared parameter types
    are [string] and plain parameter objects; [undefined] is what a missing
    argument evaluates to, and [null] is the other absent value.  An object
    is a plain one, as [JSON.parse] builds it: its prototype is
    [Object.prototype] and it is given by its own data properties, none of
    which is a function.  Numbers (IEEE doubles) are not part of any
    signature of the class and are left out. *)
#[warnings="-register-all"]
Inductive value : Type :=
| Undefined
| Null
| Str (s : string)
| Obj (props : list (string * value)).

(** ToBoolean: [undefined], [null] and the empty string are falsy; every
    other string and every object is truthy. *)
Definition truthy (v : value) : bool :=
  match v with
  | Undefined => false
  | Null => false
  | Str s => negb (s =? "")
  | Obj _ => true
  end.

(** The properties of an object are kept as a list of entries; a key is
    read at its first entry. *)
Fixpoint lookup (key : string) (props : list (string * value)) : option value :=
  match props with
  | [] => None
  | (k, v) :: rest => if k =? key then Some v else lookup key rest
  end.

(** Property read [v.key].  The class reads a property only behind a
    truthiness guard ([params && params.url]), so the receiver is never
    [undefined] or [null] when the read happens; a string has no own
    property of the names used. *)
Definition prop (v : value) (key : string) : value :=
  match v with
  | Obj props =>
      match lookup key props with
      | Some x => x
      | None => Undefined
      end
  | _ => Undefined
  end.

(** [a && b]: the left operand when it is falsy, the right one otherwise. *)
Definition and_then (a b : value) : value :=
  if truthy a then b else a.

(** The i-th actual argument of a call; an argument that was not passed
    reads as [undefined]. *)
Definition arg (i : nat) (actuals : list value) : value :=
  nth i actuals Undefined.

(** What is thrown, and what a promise is rejected with: [new Error(message)],
    the [TypeError] the engine raises (its message is the engine's own), or
    whatever the transport chose to reject with. *)
Inductive reason : Type :=
| Error (message : string)
| TypeError
| Failure (payload : value).

(** A promise, identified with the way it settles. *)
Inductive promise : Type :=
| Fulfilled (response : value)
| Rejected (why : reason).

(** How an evaluation ends: with a value, or by [throw]. *)
Inductive completion (A : Type) : Type :=
| Return (a : A)
| Throw (why : reason).
Arguments Return {A} _.
Arguments Throw {A} _.

(** ToString, as applied by a template literal [`${v}`].  An object is
    converted by its [toString] method: the one inherited from
    [Object.prototype] answers "[object Object]"; an own [toString] entry
    hides it and, holding no function, cannot be called, nor does [valueOf]
    give a primitive, and the conversion throws a [TypeError]. *)
Definition toString (v : value) : completion string :=
  match v with
  | Undefined => Return "undefined"
  | Null => Return "null"
  | Str s => Return s
  | Obj props =>
      match lookup "toString" props with
      | Some _ => Throw TypeError
      | None => Return "[object Object]"
      end
  end.

(** [Promise.reject(e)]. *)
Definition Promise_reject (e : reason) : promise := Rejected e.

End JS.

(** ** The shared HTTP transport *)

Module Transport.
Import JS.

Inductive verb : Type := GET | POST | PATCH | PUT | DELETE.

(** One call made on the HTTP client: which method, the path, and the
    arguments that followed the path. *)
Record request : Type := mkRequest {
  method : verb;
  path : string;
  payload : list value
}.

Section Client.
Context {T : Type}.

(** A method of the client: from the path, the remaining arguments and
    the state of the network to the promise it returns and the state the
    network is left in. *)
Definition endpoint : Type := string -> list value -> T -> promise * T.

(** The HTTP client.  It is an external collaborator of the class: only
    the five methods the class calls are part of the interface.  Each
    returns a promise, as its declared type says; which promise, and what
    it does to the network, is left open. *)
Record client : Type := mkClient {
  get : endpoint;
  post : endpoint;
  patch : endpoint;
  put : endpoint;
  delete : endpoint
}.

Definition select (m : verb) (c : client) : endpoint :=
  match m with
  | GET => get c
  | POST => post c
  | PATCH => patch c
  | PUT => put c
  | DELETE => delete c
  end.
End Client.

Arguments endpoint : clear implicits.
Arguments client : clear implicits.

End Transport.

(** ** The resource base class *)

Module Resource.
Import JS Transport.

(** Modelled from the spec: the class [Base] of [base.js], which the
    resource classes extend, is "a shared Base that holds an HTTP client";
    the field is read as [this.http]. *)
Record Base (T : Type) : Type := mkBase {
  http : client T
}.
Arguments http {T} _.
Arguments mkBase {T} _.

(** What a method call can observe and change: the receiver object and the
    network behind its client. *)
Record state (T : Type) : Type := mkState {
  this : Base T;
  net : T
}.
Arguments this {T} _.
Arguments net {T} _.
Arguments mkState {T} _ _.

(** The result of running a computation: its value, the state it leaves,
    and the calls it made on the HTTP client, in order. *)
Record outcome (T A : Type) : Type := mkOutcome {
  returned : A;
  final : state T;
  trace : list request
}.
Arguments returned {T A} _.
Arguments final {T A} _.
Arguments trace {T A} _.
Arguments mkOutcome {T A} _ _ _.

(** A computation runs from a state to an outcome whose value is a
    completion: a [throw] ends it early. *)
Definition M (T A : Type) : Type := state T -> outcome T (completion A).

Section Monad.
Context {T : Type}.

Definition ret {A : Type} (a : A) : M T A :=
  fun st => mkOutcome (Return a) st [].

(** [throw e] *)
Definition throw {A : Type} (e : reason) : M T A :=
  fun st => mkOutcome (Throw e) st [].

(** The evaluation of an expression that touches neither the client nor
    the network. *)
Definition lift {A : Type} (c : completion A) : M T A :=
  fun st => mkOutcome c st [].

Definition bind {A B : Type} (m : M T A) (k : A -> M T B) : M T B :=
  fun st =>
    let o1 := m st in
    match returned o1 with
    | Return a =>
        let o2 := k a (final o1) in
        mkOutcome (returned o2) (final o2) (trace o1 ++ trace o2)%list
    | Throw e => mkOutcome (Throw e) (final o1) (trace o1)
    end.

(** [this.http.<verb>(path, ...rest)]: reads the client out of the
    receiver, calls the method once, records the call. *)
Definition invoke (m : verb) (url : string) (rest : list value) : M T promise :=
  fun st =>
    let r := select m (http (this st)) url rest (net st) in
    mkOutcome (Return (fst r)) (mkState (this st) (snd r)) [mkRequest m url rest].

(** An [async] method always returns a promise: a [throw] in the body
    rejects it, a returned promise settles it. *)
Definition async (body : M T promise) : M T promise :=
  fun st =>
    let o := body st in
    mkOutcome
      (Return match returned o with
              | Return p => p
              | Throw e => Rejected e
              end)
      (final o) (trace o).
End Monad.

End Resource.

Notation "x <- m ;; k" := (Resource.bind m (fun x => k))
  (at level 61, m at next level, right associativity).


(** ** The LiveStreams class *)

Module LiveStreams.
Import JS Transport Resource.

(** Base live stream path for the Mux API. *)
Definition PATH : string := "/video/v1/live-streams".

(** [`${PATH}/${liveStreamId}`] *)
Definition buildBasePath (liveStreamId : value) : completion string :=
  match toString liveStreamId with
  | Return id => Return (PATH ++ "/" ++ id)
  | Throw e => Throw e
  end.

Section Methods.
Context {T : Type}.

Definition create (params : value) : M T promise :=
  invoke POST PATH [params].

Definition update (liveStreamId params : value) : M T promise :=
  async (
    if negb (truthy liveStreamId) || negb (truthy params) then
      throw (Error "assetId and params are required.")
    else
      base <- lift (buildBasePath liveStreamId) ;;
      invoke PATCH base [params]).

Definition del (liveStreamId : value) : M T promise :=
  if negb (truthy liveStreamId) then
    ret (Promise_reject
           (Error "A live stream ID is required to delete a live stream"))
  else
    base <- lift (buildBasePath liveStreamId) ;;
    invoke DELETE base [].

Definition get (liveStreamId : value) : M T promise :=
  if negb (truthy liveStreamId) then
    ret (Promise_reject
           (Error "A live stream ID is required to get a live stream"))
  else
    base <- lift (buildBasePath liveStreamId) ;;
    invoke GET base [].

(** [this.http.get(PATH, { params })] *)
Definition list (params : value) : M T promise :=
  invoke GET PATH [Obj [("params", params)]].

Definition signalComplete (liveStreamId : value) : M T promise :=
  if negb (truthy liveStreamId) then
    ret (Promise_reject
           (Error "A live stream ID is required to signal a stream is complete"))
  else
    base <- lift (buildBasePath liveStreamId) ;;
    invoke PUT (base ++ "/complete") [].

Definition resetStreamKey (liveStreamId : value) : M T promise :=
  if negb (truthy liveStreamId) then
    ret (Promise_reject
           (Error "A live stream ID is required to reset a live stream key"))
  else
    base <- lift (buildBasePath liveStreamId) ;;
    invoke POST (base ++ "/reset-stream-key") [].

Definition createPlaybackId (liveStreamId params : value) : M T promise :=
  if negb (truthy liveStreamId) then
    ret (Promise_reject
           (Error "A live stream ID is required to create a live stream playback ID"))
  else if negb (truthy params) then
    ret (Promise_reject
           (Error "A playback policy is required to create a live stream playback ID"))
  else
    base <- lift (buildBasePath liveStreamId) ;;
    invoke POST (base ++ "/playback-ids") [params].

Definition deletePlaybackId (liveStreamId playbackId : value) : M T promise :=
  if negb (truthy liveStreamId) then
    ret (Promise_reject
           (Error "A live stream ID is required to delete a live stream playback ID"))
  else if negb (truthy playbackId) then
    ret (Promise_reject
           (Error "A live stream playback ID is required to delete a live stream playback ID"))
  else
    base <- lift (buildBasePath liveStreamId) ;;
    sub <- lift (toString playbackId) ;;
    invoke DELETE (base ++ "/playback-ids/" ++ sub) [].

Definition playbackId (liveStreamId playbackId : value) : M T promise :=
  if negb (truthy liveStreamId) then
    ret (Promise_reject (Error "A live stream ID is required"))
  else if negb (truthy playbackId) then
    ret (Promise_reject (Error "A playback ID is required"))
  else
    base <- lift (buildBasePath liveStreamId) ;;
    sub <- lift (toString playbackId) ;;
    invoke GET (base ++ "/playback-ids/" ++ sub) [].

Definition createSimulcastTarget (liveStreamId params : value) : M T promise :=
  if negb (truthy liveStreamId) then
    ret (Promise_reject
           (Error "A live stream ID is required to create a simulcast target"))
  else if negb (truthy (and_then params (prop params "url"))) then
    ret (Promise_reject
           (Error "A url is required to create a simulcast target"))
  else
    base <- lift (buildBasePath liveStreamId) ;;
    invoke POST (base ++ "/simulcast-targets") [params].

Definition getSimulcastTarget (liveStreamId simulcastTargetId : value)
  : M T promise :=
  if negb (truthy liveStreamId) then
    ret (Promise_reject
           (Error "A live stream ID is required to get a simulcast target"))
  else if negb (truthy simulcastTargetId) then
    ret (Promise_reject
           (Error "A simulcast target ID is required to get a simulcast target"))
  else
    base <- lift (buildBasePath liveStreamId) ;;
    sub <- lift (toString simulcastTargetId) ;;
    invoke GET (base ++ "/simulcast-targets/" ++ sub) [].

Definition deleteSimulcastTarget (liveStreamId simulcastTargetId : value)
  : M T promise :=
  if negb (truthy liveStreamId) then
    ret (Promise_reject
           (Error "A live stream ID is required to delete a simulcast target"))
  else if negb (truthy simulcastTargetId) then
    ret (Promise_reject
           (Error "A simulcast target ID is required to delete a simulcast target"))
  else
    base <- lift (buildBasePath liveStreamId) ;;
    sub <- lift (toString simulcastTargetId) ;;
    invoke DELETE (base ++ "/simulcast-targets/" ++ sub) [].

Definition updateEmbeddedSubtitles (liveStreamId params : value) : M T promise :=
  async (
    if negb (truthy liveStreamId) || negb (truthy params) then
      throw (Error "liveStreamId and params are required.")
    else
      base <- lift (buildBasePath liveStreamId) ;;
      invoke PUT (base ++ "/embedded-subtitles") [params]).

Definition disable (liveStreamId : value) : M T promise :=
  if negb (truthy liveStreamId) then
    ret (Promise_reject
           (Error "A live stream ID is required to disable a live stream"))
  else
    base <- lift (buildBasePath liveStreamId) ;;
    invoke PUT (base ++ "/disable") [].

Definition enable (liveStreamId : value) : M T promise :=
  if negb (truthy liveStreamId) then
    ret (Promise_reject
           (Error "A live stream ID is required to enable a live stream"))
  else
    base <- lift (buildBasePath liveStreamId) ;;
    invoke PUT (base ++ "/enable") [].

End Methods.

End LiveStreams.

(** ** Calling a method with a list of actual arguments *)

Module Api.
Import JS Transport Resource.

(** The methods of the class. *)
Inductive operation : Type :=
| Create | Update | Del | Get | List | SignalComplete | ResetStreamKey
| CreatePlaybackId | DeletePlaybackId | PlaybackId
| CreateSimulcastTarget | GetSimulcastTarget | DeleteSimulcastTarget
| UpdateEmbeddedSubtitles | Disable | Enable.

(** [Video.LiveStreams.<op>(...actuals)]: formals are bound to actuals by
    position, a formal with no actual is [undefined]. *)
Definition call {T : Type} (op : operation) (actuals : list value) : M T promise :=
  match op with
  | Create => LiveStreams.create (arg 0 actuals)
  | Update => LiveStreams.update (arg 0 actuals) (arg 1 actuals)
  | Del => LiveStreams.del (arg 0 actuals)
  | Get => LiveStreams.get (arg 0 actuals)
  | List => LiveStreams.list (arg 0 actuals)
  | SignalComplete => LiveStreams.signalComplete (arg 0 actuals)
  | ResetStreamKey => LiveStreams.resetStreamKey (arg 0 actuals)
  | CreatePlaybackId => LiveStreams.createPlaybackId (arg 0 actuals) (arg 1 actuals)
  | DeletePlaybackId => LiveStreams.deletePlaybackId (arg 0 actuals) (arg 1 actuals)
  | PlaybackId => LiveStreams.playbackId (arg 0 actuals) (arg 1 actuals)
  | CreateSimulcastTarget =>
      LiveStreams.createSimulcastTarget (arg 0 actuals) (arg 1 actuals)
  | GetSimulcastTarget =>
      LiveStreams.getSimulcastTarget (arg 0 actuals) (arg 1 actuals)
  | DeleteSimulcastTarget =>
      LiveStreams.deleteSimulcastTarget (arg 0 actuals) (arg 1 actuals)
  | UpdateEmbeddedSubtitles =>
      LiveStreams.updateEmbeddedSubtitles (arg 0 actuals) (arg 1 actuals)
  | Disable => LiveStreams.disable (arg 0 actuals)
  | Enable => LiveStreams.enable (arg 0 actuals)
  end.

End Api.

(** ** The vocabulary of the specification

    The definitions of this module are not translated from the code: they
    write down the words the specification uses, so that the theorems can
    compare the methods with them. *)

Module Spec.
Import JS Transport Resource Api.

(** An "empty or missing" argument: not passed, [null], or the empty string. *)
Definition absent (v : value) : bool :=
  match v with
  | Undefined => true
  | Null => true
  | Str "" => true
  | _ => false
  end.

(** A "present, non-empty" argument. *)
Definition present (v : value) : bool := negb (absent v).

(** The operations that require a live stream identifier. *)
Definition takes_identifier (op : operation) : bool :=
  match op with
  | Create | List => false
  | _ => true
  end.

(** The two-argument operations that validate each argument on its own. *)
Definition two_argument (op : operation) : bool :=
  match op with
  | CreatePlaybackId | DeletePlaybackId | PlaybackId
  | CreateSimulcastTarget | GetSimulcastTarget | DeleteSimulcastTarget => true
  | _ => false
  end.

(** The operations that take a live stream identifier and a parameters
    object and validate both in one test. *)
Definition joint_check (op : operation) : bool :=
  match op with
  | Update | UpdateEmbeddedSubtitles => true
  | _ => false
  end.

(** The message each operation documents for a missing live stream
    identifier. *)
Definition identifier_message (op : operation) : string :=
  match op with
  | Create | List => ""
  | Update => "assetId and params are required."
  | Del => "A live stream ID is required to delete a live stream"
  | Get => "A live stream ID is required to get a live stream"
  | SignalComplete => "A live stream ID is required to signal a stream is complete"
  | ResetStreamKey => "A live stream ID is required to reset a live stream key"
  | CreatePlaybackId =>
      "A live stream ID is required to create a live stream playback ID"
  | DeletePlaybackId =>
      "A live stream ID is required to delete a live stream playback ID"
  | PlaybackId => "A live stream ID is required"
  | CreateSimulcastTarget =>
      "A live stream ID is required to create a simulcast target"
  | GetSimulcastTarget => "A live stream ID is required to get a simulcast target"
  | DeleteSimulcastTarget =>
      "A live stream ID is required to delete a simulcast target"
  | UpdateEmbeddedSubtitles => "liveStreamId and params are required."
  | Disable => "A live stream ID is required to disable a live stream"
  | Enable => "A live stream ID is required to enable a live stream"
  end.

(** The message a two-argument operation documents for its second argument. *)
Definition second_message (op : operation) : string :=
  match op with
  | CreatePlaybackId =>
      "A playback policy is required to create a live stream playback ID"
  | DeletePlaybackId =>
      "A live stream playback ID is required to delete a live stream playback ID"
  | PlaybackId => "A playback ID is required"
  | CreateSimulcastTarget => "A url is required to create a simulcast target"
  | GetSimulcastTarget =>
      "A simulcast target ID is required to get a simulcast target"
  | DeleteSimulcastTarget =>
      "A simulcast target ID is required to delete a simulcast target"
  | _ => ""
  end.

(** The positions of the arguments an operation requires to be present.
    [create] and [list] require none. *)
Definition required (op : operation) : list nat :=
  match op with
  | Create | List => []
  | Del | Get | SignalComplete | ResetStreamKey | Disable | Enable => [0]
  | _ => [0; 1]
  end.

(** "Called with valid (present, non-empty) required arguments". *)
Definition required_present (op : operation) (actuals : list value) : bool :=
  forallb (fun i => present (arg i actuals)) (required op).

(** What [createSimulcastTarget] asks of its parameters beyond presence: a
    non-empty [url]. *)
Definition url_present (op : operation) (actuals : list value) : bool :=
  match op with
  | CreateSimulcastTarget => present (prop (arg 1 actuals) "url")
  | _ => true
  end.

(** The verb expected for each operation. *)
Definition expected_verb (op : operation) : verb :=
  match op with
  | Create | ResetStreamKey | CreatePlaybackId | CreateSimulcastTarget => POST
  | Update => PATCH
  | Del | DeletePlaybackId | DeleteSimulcastTarget => DELETE
  | Get | List | PlaybackId | GetSimulcastTarget => GET
  | SignalComplete | UpdateEmbeddedSubtitles | Disable | Enable => PUT
  end.

(** An identifier as it is written into a path: the string it converts
    to. *)
Definition written (v : value) : string :=
  match toString v with
  | Return s => s
  | Throw _ => ""
  end.

(** The conversion of a value to a string succeeds. *)
Definition converts (v : value) : bool :=
  match toString v with
  | Return _ => true
  | Throw _ => false
  end.

(** The positions of the arguments an operation writes into its path. *)
Definition identifier_positions (op : operation) : list nat :=
  match op with
  | Create | List => []
  | DeletePlaybackId | PlaybackId | GetSimulcastTarget
  | DeleteSimulcastTarget => [0; 1]
  | _ => [0]
  end.

(** Every identifier of the call can be written into the path; identifiers
    that are strings always can. *)
Definition identifiers_convert (op : operation) (actuals : list value) : bool :=
  forallb (fun i => converts (arg i actuals)) (identifier_positions op).

(** The path expected for each operation, written out in full. *)
Definition expected_path (op : operation) (actuals : list value) : string :=
  let id := written (arg 0 actuals) in
  let sub := written (arg 1 actuals) in
  match op with
  | Create | List => "/video/v1/live-streams"
  | Update | Del | Get => "/video/v1/live-streams/" ++ id
  | SignalComplete => "/video/v1/live-streams/" ++ id ++ "/complete"
  | ResetStreamKey => "/video/v1/live-streams/" ++ id ++ "/reset-stream-key"
  | CreatePlaybackId => "/video/v1/live-streams/" ++ id ++ "/playback-ids"
  | DeletePlaybackId | PlaybackId =>
      "/video/v1/live-streams/" ++ id ++ "/playback-ids/" ++ sub
  | CreateSimulcastTarget =>
      "/video/v1/live-streams/" ++ id ++ "/simulcast-targets"
  | GetSimulcastTarget | DeleteSimulcastTarget =>
      "/video/v1/live-streams/" ++ id ++ "/simulcast-targets/" ++ sub
  | UpdateEmbeddedSubtitles =>
      "/video/v1/live-streams/" ++ id ++ "/embedded-subtitles"
  | Disable => "/video/v1/live-streams/" ++ id ++ "/disable"
  | Enable => "/video/v1/live-streams/" ++ id ++ "/enable"
  end.

(** What the caller's arguments look like when they reach the transport:
    the parameters object as it was passed, for [list] as the [params]
    entry of the request configuration, and nothing for the operations
    that take identifiers only. *)
Definition handed_over (op : operation) (actuals : list value) : list value :=
  match op with
  | Create => [arg 0 actuals]
  | List => [Obj [("params", arg 0 actuals)]]
  | Update | CreatePlaybackId | CreateSimulcastTarget
  | UpdateEmbeddedSubtitles => [arg 1 actuals]
  | _ => []
  end.

Definition expected_request (op : operation) (actuals : list value) : request :=
  mkRequest (expected_verb op) (expected_path op actuals) (handed_over op actuals).

(** The operations whose path holds the live stream identifier and no
    second identifier. *)
Definition one_identifier (op : operation) : bool :=
  match op with
  | Update | Del | Get | SignalComplete | ResetStreamKey | CreatePlaybackId
  | CreateSimulcastTarget | UpdateEmbeddedSubtitles | Disable | Enable => true
  | _ => false
  end.

(** The arguments pass every test of the operation. *)
Definition accepted (op : operation) (actuals : list value) : bool :=
  required_present op actuals && url_present op actuals.

(** The message of the first test that fails: the identifier's, or, when a
    two-argument operation has its identifier, the second argument's. *)
Definition local_message (op : operation) (actuals : list value) : string :=
  if two_argument op && present (arg 0 actuals)
  then second_message op
  else identifier_message op.

(** What the transport answers to a request made in a given state. *)
Definition reply {T : Type} (st : state T) (r : request) : promise * T :=
  select (method r) (http (this st)) (path r) (payload r) (net st).

(** The outcome of a call that does nothing but make request [r] and hand
    back what the transport returned. *)
Definition forwards {T : Type} (st : state T) (r : request)
  : outcome T (completion promise) :=
  mkOutcome (Return (fst (reply st r))) (mkState (this st) (snd (reply st r))) [r].

(** The outcome of a call that rejects on its own, leaving the client and
    the network alone. *)
Definition rejects_locally {T : Type} (st : state T) (message : string)
  : outcome T (completion promise) :=
  mkOutcome (Return (Rejected (Error message))) st [].

(** The outcome of a call that stops at an identifier it cannot write into
    the path: the [TypeError] is thrown out of the method, and rejects the
    promise of the two [async] ones; the client and the network are left
    alone. *)
Definition conversion_fails {T : Type} (st : state T) (op : operation)
  : outcome T (completion promise) :=
  mkOutcome (if joint_check op then Return (Rejected TypeError) else Throw TypeError)
    st [].

End Spec.

(** ** Two transports to run the methods against *)

Module Sample.
Import JS Transport Resource.

(** A transport that answers every request with its own path and counts
    the requests it has served. *)
Definition answer : endpoint nat :=
  fun url _ served => (Fulfilled (Str url), S served).

Definition echo : client nat := mkClient answer answer answer answer answer.

(** A transport that fails every request. *)
Definition refuse : endpoint nat :=
  fun _ _ served => (Rejected (Failure (Str "ECONNREFUSED")), S served).

Definition down : client nat := mkClient refuse refuse refuse refuse refuse.

Definition online : state nat := mkState (mkBase echo) 0.
Definition offline : state nat := mkState (mkBase down) 0.

End Sample.

(** ** Properties *)

Import JS Transport Resource Api Spec.

(** *** Truthiness and presence *)

Lemma truthy_present (v : value) : truthy v = present v.
Proof.
  destruct v as [| | s | props]; try reflexivity.
  destruct s; reflexivity.
Qed.

Lemma absent_falsy (v : value) : absent v = true -> truthy v = false.
Proof.
  intro H. rewrite truthy_present. unfold present. now rewrite H.
Qed.


Lemma falsy_cases (v : value) :
  truthy v = false -> v = Undefined \/ v = Null \/ v = Str "".
Proof.
  destruct v as [| | s | props]; simpl; auto.
  - destruct s; simpl; auto. discriminate.
  - discriminate.
Qed.

(** A guarded conjunction is truthy exactly when both operands are. *)
Lemma and_then_truthy (a b : value) :
  truthy (and_then a b) = truthy a && truthy b.
Proof.
  unfold and_then. destruct (truthy a) eqn:Ha; simpl; auto.
Qed.

Create Rewrite HintDb livestreams.
#[export] Hint Rewrite and_then_truthy : livestreams.

(** Rewrites every truthiness test whose answer is among the hypotheses and
    lets the method run. *)
Ltac settle_guards :=
  repeat match goal with
         | H : truthy ?v = _ |- context [truthy ?v] => rewrite H
         end;
  simpl.

Ltac unfold_methods :=
  unfold call,
    LiveStreams.create, LiveStreams.update, LiveStreams.del, LiveStreams.get,
    LiveStreams.list, LiveStreams.signalComplete, LiveStreams.resetStreamKey,
    LiveStreams.createPlaybackId, LiveStreams.deletePlaybackId,
    LiveStreams.playbackId, LiveStreams.createSimulcastTarget,
    LiveStreams.getSimulcastTarget, LiveStreams.deleteSimulcastTarget,
    LiveStreams.updateEmbeddedSubtitles, LiveStreams.disable,
    LiveStreams.enable.

(** *** The methods at work *)

Example enable_live1 :
  call Enable [Str "live1"] Sample.online
  = mkOutcome (Return (Fulfilled (Str "/video/v1/live-streams/live1/enable")))
      (mkState (mkBase Sample.echo) 1)
      [mkRequest PUT "/video/v1/live-streams/live1/enable" []].
Proof. reflexivity. Qed.

Example list_without_arguments :
  trace (call List [] Sample.online)
  = [mkRequest GET "/video/v1/live-streams" [Obj [("params", Undefined)]]].
Proof. reflexivity. Qed.

Example createSimulcastTarget_with_url :
  let params := Obj [("url", Str "rtmp://live.example.com/app");
                     ("stream_key", Str "difvbfgi")] in
  trace (call CreateSimulcastTarget [Str "live1"; params] Sample.online)
  = [mkRequest POST "/video/v1/live-streams/live1/simulcast-targets" [params]].
Proof. reflexivity. Qed.

Example createSimulcastTarget_with_empty_url :
  returned (call CreateSimulcastTarget
              [Str "live1"; Obj [("url", Str "")]] Sample.online)
  = Return (Rejected (Error "A url is required to create a simulcast target")).
Proof. reflexivity. Qed.

Example get_with_unconvertible_identifier :
  call Get [Obj [("toString", Str "x")]] Sample.online
  = mkOutcome (Throw TypeError) Sample.online [].
Proof. reflexivity. Qed.

Example update_with_unconvertible_identifier :
  call Update [Obj [("toString", Str "x")]; Obj [("latency_mode", Str "low")]]
    Sample.online
  = mkOutcome (Return (Rejected TypeError)) Sample.online [].
Proof. reflexivity. Qed.

Example playbackId_without_identifier :
  call PlaybackId [Null; Str "pb7"] Sample.offline
  = rejects_locally Sample.offline "A live stream ID is required".
Proof. reflexivity. Qed.

(** *** Local validation *)

(** C1. Every operation that requires a live stream identifier, called with
    an empty or missing identifier, returns a promise rejected with the
    message documented for that operation; the HTTP client is not called and
    the network is left as it was. *)
Theorem missing_identifier_rejected {T : Type}
    (op : operation) (actuals : list value) (st : state T) :
  takes_identifier op = true ->
  absent (arg 0 actuals) = true ->
  call op actuals st = rejects_locally st (identifier_message op).
Proof.
  intros Hop Hid. apply absent_falsy in Hid.
  destruct op; try discriminate Hop; unfold_methods;
    autorewrite with livestreams; settle_guards; reflexivity.
Qed.


(** The conversion to a string throws nothing but a [TypeError]. *)
Lemma toString_throws (v : value) (e : reason) :
  toString v = Throw e -> e = TypeError.
Proof.
  destruct v as [| | s | props]; simpl; try discriminate.
  destruct (lookup "toString" props); [| discriminate].
  intro H. now injection H.
Qed.

(** Every call is decided by its arguments alone: when one fails a test
    the call rejects on its own; when all pass but an identifier cannot be
    written into the path the call stops with a [TypeError]; otherwise it
    makes the one request expected for the operation and hands back the
    transport's promise. *)
Lemma call_characterised {T : Type}
    (op : operation) (actuals : list value) (st : state T) :
  call op actuals st =
    if accepted op actuals
    then if identifiers_convert op actuals
         then forwards st (expected_request op actuals)
         else conversion_fails st op
    else rejects_locally st (local_message op actuals).
Proof.
  unfold accepted, required_present, local_message, identifiers_convert,
    conversion_fails, expected_request, expected_path, written, converts.
  destruct op; unfold_methods; unfold LiveStreams.buildBasePath;
    autorewrite with livestreams; rewrite ?truthy_present; simpl;
    repeat match goal with
           | |- context [present ?v] => destruct (present v)
           end;
    simpl; try reflexivity;
    repeat match goal with
           | |- context [toString ?v] =>
               let E := fresh "E" in
               destruct (toString v) eqn:E;
               [| apply toString_throws in E; subst]
           end;
    reflexivity.
Qed.

(** C9. In the six two-argument operations the live stream identifier is
    tested first: with both arguments empty or missing, the rejection carries
    the message about the identifier, which differs from the message about
    the second argument, and no request is made. *)
Theorem identifier_validated_first {T : Type}
    (op : operation) (actuals : list value) (st : state T) :
  two_argument op = true ->
  absent (arg 0 actuals) = true ->
  absent (arg 1 actuals) = true ->
  call op actuals st = rejects_locally st (identifier_message op)
  /\ identifier_message op <> second_message op.
Proof.
  intros Hop Hid Hsnd. apply absent_falsy in Hid. apply absent_falsy in Hsnd.
  destruct op; try discriminate Hop; split; try discriminate;
    unfold_methods; settle_guards; reflexivity.
Qed.

(** C6. [update] and [updateEmbeddedSubtitles], called with a missing live
    stream identifier or a missing parameters object, return a rejected
    promise carrying a non-empty message and make no request. *)
Theorem joint_check_rejects {T : Type}
    (op : operation) (actuals : list value) (st : state T) :
  joint_check op = true ->
  absent (arg 0 actuals) = true \/ absent (arg 1 actuals) = true ->
  call op actuals st = rejects_locally st (identifier_message op)
  /\ identifier_message op <> "".
Proof.
  intros Hop [H | H]; apply absent_falsy in H;
    destruct op; try discriminate Hop; split; try discriminate;
    unfold_methods; settle_guards; rewrite ?orb_true_r; reflexivity.
Qed.

(** C10. When [update] is called with a missing live stream identifier or a
    missing parameters object, the error carries exactly the string
    'assetId and params are required.', whose first word is assetId. *)
Theorem update_error_names_assetId {T : Type}
    (liveStreamId params : value) (st : state T) :
  absent liveStreamId = true \/ absent params = true ->
  exists message,
    LiveStreams.update liveStreamId params st = rejects_locally st message
    /\ message = "assetId and params are required."
    /\ prefix "assetId" message = true.
Proof.
  intros H. exists "assetId and params are required.".
  split; [| split; reflexivity].
  destruct H as [H | H]; apply absent_falsy in H;
    unfold LiveStreams.update; settle_guards; rewrite ?orb_true_r; reflexivity.
Qed.

(** *** Requests *)



(** C8. [create] and [list] validate nothing: whatever the argument --
    missing, [null], an empty object -- [create] makes exactly one POST to
    '/video/v1/live-streams' and [list] exactly one GET to the same path,
    and each returns the transport's promise. *)
Theorem create_and_list_never_validate {T : Type} (params : value) (st : state T) :
  LiveStreams.create params st =
    forwards st (mkRequest POST "/video/v1/live-streams" [params])
  /\ LiveStreams.list params st =
       forwards st
         (mkRequest GET "/video/v1/live-streams" [Obj [("params", params)]]).
Proof.
  split; reflexivity.
Qed.

(** C4. Path construction is a function of the arguments alone:
    [buildBasePath] of an identifier string is '/video/v1/live-streams/'
    followed by that string, and the paths an operation requests are the
    same for the same arguments whatever the client, the transport behind it
    and the state of the network. *)
Theorem path_construction_deterministic :
  (forall s : string,
      LiveStreams.buildBasePath (Str s)
      = Return ("/video/v1/live-streams/" ++ s))
  /\ (forall (T1 T2 : Type) (op : operation) (actuals : list value)
             (st1 : state T1) (st2 : state T2),
         map path (trace (call op actuals st1))
         = map path (trace (call op actuals st2))).
Proof.
  split.
  - reflexivity.
  - intros. rewrite !call_characterised.
    destruct (accepted op actuals), (identifiers_convert op actuals);
      reflexivity.
Qed.

(** C5. Every path requested by an operation begins with
    '/video/v1/live-streams', and the verb is one of GET, POST, PATCH, PUT
    and DELETE. *)
Theorem request_prefix_and_verb {T : Type}
    (op : operation) (actuals : list value) (st : state T) :
  Forall (fun r =>
            prefix "/video/v1/live-streams" (path r) = true
            /\ In (method r) [GET; POST; PATCH; PUT; DELETE])
         (trace (call op actuals st)).
Proof.
  rewrite call_characterised.
  destruct (accepted op actuals), (identifiers_convert op actuals);
    simpl; constructor; [| constructor].
  split.
  - destruct op; reflexivity.
  - destruct op; simpl; auto 6.
Qed.

(** *** Frame *)

(** C7. No operation changes the client object: the receiver, and with it
    the reference to its HTTP client, is the same after the call as before;
    and what reaches the transport is the caller's parameters object as it
    was passed ([list] passes it as the [params] entry of the request
    configuration). *)
Theorem client_state_preserved {T : Type}
    (op : operation) (actuals : list value) (st : state T) :
  this (final (call op actuals st)) = this st
  /\ Forall (fun r => payload r = handed_over op actuals)
            (trace (call op actuals st)).
Proof.
  rewrite call_characterised.
  destruct (accepted op actuals), (identifiers_convert op actuals);
    simpl; split; auto.
Qed.

(** *** The claims that fail as stated *)



(** *** The theorems at concrete calls *)

Lemma missing_identifier_rejected_witness :
  takes_identifier Del = true
  /\ absent (arg 0 []) = true
  /\ call Del [] Sample.online
     = rejects_locally Sample.online
         "A live stream ID is required to delete a live stream".
Proof.
  split; [reflexivity | split; [reflexivity |]].
  apply (missing_identifier_rejected Del [] Sample.online); reflexivity.
Defined.

Lemma identifier_validated_first_witness :
  two_argument DeletePlaybackId = true
  /\ absent (arg 0 [Str ""; Null]) = true
  /\ absent (arg 1 [Str ""; Null]) = true
  /\ call DeletePlaybackId [Str ""; Null] Sample.online
     = rejects_locally Sample.online
         "A live stream ID is required to delete a live stream playback ID".
Proof.
  repeat (split; [reflexivity |]).
  apply (identifier_validated_first DeletePlaybackId [Str ""; Null] Sample.online);
    reflexivity.
Defined.

Lemma joint_check_rejects_witness :
  joint_check UpdateEmbeddedSubtitles = true
  /\ absent (arg 1 [Str "live1"]) = true
  /\ call UpdateEmbeddedSubtitles [Str "live1"] Sample.online
     = rejects_locally Sample.online "liveStreamId and params are required.".
Proof.
  repeat (split; [reflexivity |]).
  apply (joint_check_rejects UpdateEmbeddedSubtitles [Str "live1"] Sample.online);
    [reflexivity | right; reflexivity].
Defined.

Lemma update_error_names_assetId_witness :
  absent Undefined = true
  /\ exists message,
       LiveStreams.update Undefined (Obj []) Sample.online
       = rejects_locally Sample.online message
       /\ message = "assetId and params are required."
       /\ prefix "assetId" message = true.
Proof.
  split; [reflexivity |].
  apply (update_error_names_assetId Undefined (Obj []) Sample.online).
  left; reflexivity.
Defined.


(** ** Further properties of the methods *)

(** *** Strings under concatenation *)

Lemma append_assoc (a b c : string) : (a ++ b) ++ c = a ++ (b ++ c).
Proof.
  induction a as [| ch a IH]; simpl; [reflexivity | now rewrite IH].
Qed.

Lemma length_append (a b : string) :
  String.length (a ++ b) = String.length a + String.length b.
Proof.
  induction a as [| ch a IH]; simpl; [reflexivity | now rewrite IH].
Qed.

Lemma append_cancel_l (a x y : string) : a ++ x = a ++ y -> x = y.
Proof.
  induction a as [| ch a IH]; simpl; intro H; [assumption |].
  injection H as H. auto.
Qed.

Lemma append_cancel_r (s a b : string) : a ++ s = b ++ s -> a = b.
Proof.
  revert b. induction a as [| ch a IH]; intros [| ch' b] H; simpl in H.
  - reflexivity.
  - apply (f_equal String.length) in H. simpl in H.
    rewrite length_append in H. lia.
  - apply (f_equal String.length) in H. simpl in H.
    rewrite length_append in H. lia.
  - injection H as Hc H. subst. f_equal. auto.
Qed.

Lemma append_fixpoint (a x : string) : a = a ++ x -> x = "".
Proof.
  intro H. apply (f_equal String.length) in H.
  rewrite length_append in H. destruct x; [reflexivity | simpl in H; lia].
Qed.

(** A string that starts with a non-empty string is truthy. *)
Lemma truthy_append_l (a x : string) :
  truthy (Str a) = true -> truthy (Str (a ++ x)) = true.
Proof.
  destruct a; simpl; [discriminate | reflexivity].
Qed.

Lemma truthy_append_r (a x : string) :
  truthy (Str x) = true -> truthy (Str (a ++ x)) = true.
Proof.
  destruct a; simpl; [trivial | reflexivity].
Qed.

Lemma present_append_l (a x : string) :
  present (Str a) = true -> present (Str (a ++ x)) = true.
Proof.
  rewrite <- !truthy_present. apply truthy_append_l.
Qed.

Lemma present_append_r (a x : string) :
  present (Str x) = true -> present (Str (a ++ x)) = true.
Proof.
  rewrite <- !truthy_present. apply truthy_append_r.
Qed.

(** Evaluates the tests of a call on arguments that are given as strings. *)
Ltac decide_call :=
  rewrite !call_characterised;
  unfold accepted, required_present, url_present, identifiers_convert, converts;
  cbn [forallb required identifier_positions arg nth toString andb];
  repeat match goal with
         | H : present ?v = true |- context [present ?v] => rewrite H
         end;
  cbn [andb].

(** *** What a call can do *)

(** X2. Whatever its arguments, a call ends in one of three ways: it
    rejects on its own with an [Error]; or it stops with a [TypeError] at an
    identifier that cannot be converted to a string (thrown out of the
    method, and rejecting the promise of the two [async] ones); or it makes
    exactly the one request of its operation and hands back the transport's
    promise.  In the first two the client and the network are left alone
    and no request is made: no method fulfils a promise by itself, and none
    makes a second request. *)
Theorem call_rejects_or_forwards {T : Type}
    (op : operation) (actuals : list value) (st : state T) :
  (exists message, call op actuals st = rejects_locally st message)
  \/ call op actuals st = conversion_fails st op
  \/ call op actuals st = forwards st (expected_request op actuals).
Proof.
  rewrite call_characterised.
  destruct (accepted op actuals), (identifiers_convert op actuals);
    [right; right | right; left | left; eexists | left; eexists];
    reflexivity.
Qed.

(** X7. A call depends on the client only through the one method its
    operation uses: two clients that agree on that method give the same
    promise, the same network state and the same request, however their
    other four methods differ. *)
Theorem only_one_method_matters {T : Type}
    (op : operation) (actuals : list value) (c1 c2 : client T) (n : T) :
  select (expected_verb op) c1 = select (expected_verb op) c2 ->
  returned (call op actuals (mkState (mkBase c1) n))
  = returned (call op actuals (mkState (mkBase c2) n))
  /\ net (final (call op actuals (mkState (mkBase c1) n)))
     = net (final (call op actuals (mkState (mkBase c2) n)))
  /\ trace (call op actuals (mkState (mkBase c1) n))
     = trace (call op actuals (mkState (mkBase c2) n)).
Proof.
  intro H. rewrite !call_characterised.
  destruct (accepted op actuals), (identifiers_convert op actuals);
    simpl; auto.
  unfold reply; simpl. rewrite H. auto.
Qed.

(** *** Identifiers in paths *)

(** X3. Identifiers are put into the path as they are, with no escaping: an
    identifier that ends in a sub-resource path makes [get] and [del] issue
    the very request of the corresponding sub-resource operation. *)
Theorem identifier_not_escaped {T : Type} (a b : string) (st : state T) :
  present (Str a) = true ->
  present (Str b) = true ->
  call Get [Str (a ++ "/playback-ids/" ++ b)] st
  = call PlaybackId [Str a; Str b] st
  /\ call Del [Str (a ++ "/playback-ids/" ++ b)] st
     = call DeletePlaybackId [Str a; Str b] st
  /\ call Get [Str (a ++ "/simulcast-targets/" ++ b)] st
     = call GetSimulcastTarget [Str a; Str b] st
  /\ call Del [Str (a ++ "/simulcast-targets/" ++ b)] st
     = call DeleteSimulcastTarget [Str a; Str b] st.
Proof.
  intros Ha Hb.
  pose proof (present_append_l a ("/playback-ids/" ++ b) Ha) as Hp.
  pose proof (present_append_l a ("/simulcast-targets/" ++ b) Ha) as Hs.
  repeat split; decide_call;
    unfold expected_request, expected_path, written;
    cbn [arg nth toString]; reflexivity.
Qed.

(** X5. The two identifiers of a sub-resource operation cannot be told
    apart in the request: moving a path segment from the end of the first
    identifier to the start of the second gives the same call. *)
Theorem identifier_pair_ambiguous {T : Type} (a b c : string) (st : state T) :
  present (Str a) = true ->
  present (Str c) = true ->
  call PlaybackId [Str (a ++ "/playback-ids/" ++ b); Str c] st
  = call PlaybackId [Str a; Str (b ++ "/playback-ids/" ++ c)] st
  /\ call DeletePlaybackId [Str (a ++ "/playback-ids/" ++ b); Str c] st
     = call DeletePlaybackId [Str a; Str (b ++ "/playback-ids/" ++ c)] st
  /\ call GetSimulcastTarget [Str (a ++ "/simulcast-targets/" ++ b); Str c] st
     = call GetSimulcastTarget [Str a; Str (b ++ "/simulcast-targets/" ++ c)] st
  /\ call DeleteSimulcastTarget [Str (a ++ "/simulcast-targets/" ++ b); Str c] st
     = call DeleteSimulcastTarget [Str a; Str (b ++ "/simulcast-targets/" ++ c)] st.
Proof.
  intros Ha Hc.
  pose proof (present_append_l a ("/playback-ids/" ++ b) Ha) as Hp.
  pose proof (present_append_l a ("/simulcast-targets/" ++ b) Ha) as Hs.
  pose proof (present_append_r b _
                (present_append_r "/playback-ids/" c Hc)) as Hp'.
  pose proof (present_append_r b _
                (present_append_r "/simulcast-targets/" c Hc)) as Hs'.
  repeat split; decide_call;
    unfold expected_request, expected_path, written;
    cbn [arg nth toString]; rewrite !append_assoc; reflexivity.
Qed.

(** X4. For an operation whose path holds only the live stream identifier,
    the path determines the identifier: two calls that differ in nothing but
    that string, one of which makes a request, request the same path only
    if the two strings are equal. *)
Theorem identifier_determined_by_path {T : Type}
    (op : operation) (a b : string) (rest : list value) (st1 st2 : state T) :
  one_identifier op = true ->
  trace (call op (Str a :: rest) st1) <> [] ->
  map path (trace (call op (Str a :: rest) st1))
  = map path (trace (call op (Str b :: rest) st2)) ->
  a = b.
Proof.
  intros Hop Hreq Hpath. rewrite !call_characterised in *.
  destruct (accepted op (Str a :: rest)),
    (identifiers_convert op (Str a :: rest)); try now elim Hreq.
  destruct (accepted op (Str b :: rest)),
    (identifiers_convert op (Str b :: rest)); try discriminate Hpath.
  cbv [forwards trace map expected_request path] in Hpath.
  injection Hpath as Hpath.
  destruct op; try discriminate Hop;
    cbv [expected_path arg nth written toString] in Hpath;
    apply append_cancel_l in Hpath;
    solve [ assumption | eapply append_cancel_r; eassumption ].
Qed.

(** X6. On the same arguments two different operations never make the same
    request: a request that was made identifies the operation. *)
Theorem request_identifies_operation {T : Type}
    (op1 op2 : operation) (actuals : list value) (st1 st2 : state T) :
  trace (call op1 actuals st1) <> [] ->
  trace (call op1 actuals st1) = trace (call op2 actuals st2) ->
  op1 = op2.
Proof.
  intros Hreq Heq. rewrite !call_characterised in *.
  destruct (accepted op1 actuals), (identifiers_convert op1 actuals);
    try now elim Hreq.
  destruct (accepted op2 actuals), (identifiers_convert op2 actuals);
    try discriminate Heq.
  cbv [forwards trace expected_request] in Heq.
  injection Heq as Hverb Hpath Hpayload.
  destruct op1, op2; try reflexivity; try discriminate Hverb;
    try discriminate Hpayload;
    cbv [expected_path] in Hpath;
    repeat match type of Hpath with
           | ?p ++ _ = ?p ++ _ => apply append_cancel_l in Hpath
           end;
    try discriminate Hpath;
    try (apply append_fixpoint in Hpath; discriminate Hpath);
    try (symmetry in Hpath; apply append_fixpoint in Hpath; discriminate Hpath).
Qed.

(** *** The further properties at concrete calls *)


Lemma only_one_method_matters_witness :
  let reads := mkClient Sample.answer Sample.refuse Sample.refuse
                 Sample.refuse Sample.refuse in
  select (expected_verb Get) Sample.echo = select (expected_verb Get) reads
  /\ returned (call Get [Str "live1"] (mkState (mkBase Sample.echo) 0))
     = returned (call Get [Str "live1"] (mkState (mkBase reads) 0))
  /\ net (final (call Get [Str "live1"] (mkState (mkBase Sample.echo) 0)))
     = net (final (call Get [Str "live1"] (mkState (mkBase reads) 0)))
  /\ trace (call Get [Str "live1"] (mkState (mkBase Sample.echo) 0))
     = trace (call Get [Str "live1"] (mkState (mkBase reads) 0)).
Proof.
  split; [reflexivity |].
  apply (only_one_method_matters Get [Str "live1"] Sample.echo
           (mkClient Sample.answer Sample.refuse Sample.refuse
              Sample.refuse Sample.refuse) 0).
  reflexivity.
Defined.

Lemma identifier_not_escaped_witness :
  present (Str "live1") = true
  /\ present (Str "pb7") = true
  /\ call Get [Str "live1/playback-ids/pb7"] Sample.online
     = call PlaybackId [Str "live1"; Str "pb7"] Sample.online.
Proof.
  repeat (split; [reflexivity |]).
  apply (identifier_not_escaped "live1" "pb7" Sample.online); reflexivity.
Defined.

Lemma identifier_pair_ambiguous_witness :
  present (Str "a") = true
  /\ present (Str "c") = true
  /\ call DeleteSimulcastTarget [Str "a/simulcast-targets/b"; Str "c"] Sample.online
     = call DeleteSimulcastTarget [Str "a"; Str "b/simulcast-targets/c"] Sample.online.
Proof.
  repeat (split; [reflexivity |]).
  apply (identifier_pair_ambiguous "a" "b" "c" Sample.online); reflexivity.
Defined.

Lemma identifier_determined_by_path_witness :
  one_identifier Enable = true
  /\ trace (call Enable [Str "live1"] Sample.online) <> []
  /\ map path (trace (call Enable [Str "live1"] Sample.online))
     = map path (trace (call Enable [Str "live1"] Sample.offline))
  /\ "live1" = "live1".
Proof.
  split; [reflexivity | split; [discriminate | split; [reflexivity |]]].
  apply (identifier_determined_by_path Enable "live1" "live1" []
           Sample.online Sample.offline);
    [reflexivity | discriminate | reflexivity].
Defined.

Lemma request_identifies_operation_witness :
  trace (call Disable [Str "live1"] Sample.online) <> []
  /\ trace (call Disable [Str "live1"] Sample.online)
     = trace (call Disable [Str "live1"] Sample.offline)
  /\ Disable = Disable.
Proof.
  split; [discriminate | split; [reflexivity |]].
  apply (request_identifies_operation Disable Disable [Str "live1"]
           Sample.online Sample.offline);
    [discriminate | reflexivity].
Defined.
